(** * pysftpserver: the proxy storage (proxystorage.py)

    A shallow embedding of [SFTPServerProxyStorage], the storage backend
    that forwards every request of the SFTP server to a remote SFTP
    endpoint through a Paramiko client, together with the properties its
    specification states about it.

    Conventions of the embedding:
    - Python integers are [Z]; [&] is [Z.land]; an integer is true in a
      condition exactly when it is not zero.
    - Python text and byte strings are 8-bit strings; [str.encode] maps a
      text to its list of bytes.
    - Dictionaries with byte-string keys are [gmap string pyval].
    - The Paramiko client and the open files it hands out are external:
      the development is parameterised by the client's behaviour, a
      function from a call and the remote state to an outcome and the next
      remote state.  Every call that reaches the client is recorded in a
      trace, so that "which remote calls were made, in which order" is a
      statement about the trace.
    - Exceptions are values; a computation either returns or raises. *)

From Stdlib Require Import ZArith Ascii String List Bool.
From Stdlib.Strings Require Import Byte.
From stdpp Require Import base strings gmap.

Local Open Scope Z_scope.
Local Open Scope list_scope.

(** ** Python values and exceptions *)

Inductive pyval : Type :=
| VNone
| VInt (z : Z)
| VStr (s : string)
| VBytes (b : list byte).

(** An exception instance.  [is_IOError] and [is_OSError] record where the
    class of the instance sits in the hierarchy of the running interpreter:
    in Python 3 [IOError] is [OSError], so the two agree; in Python 2 both
    derive from [EnvironmentError] and a plain [IOError] is not an
    [OSError]. *)
Record exn : Type := mk_exn {
  exn_class : string;
  is_IOError : bool;
  is_OSError : bool;
  exn_errno : pyval;
  exn_strerror : pyval;
  exn_args : list pyval
}.

(** [OSError(errno, strerror)] as the wrapper builds it; this happens
    under Python 2 only, where [OSError] is not an [IOError]. *)
Definition OSError (errno strerror : pyval) : exn :=
  {| exn_class := "OSError"; is_IOError := false; is_OSError := true;
     exn_errno := errno; exn_strerror := strerror;
     exn_args := [errno; strerror] |}.

(** An error raised by the interpreter itself, outside the
    [EnvironmentError] family. *)
Definition py_error (cls : string) : exn :=
  {| exn_class := cls; is_IOError := false; is_OSError := false;
     exn_errno := VNone; exn_strerror := VNone; exn_args := [] |}.

Definition AttributeError : exn := py_error "AttributeError".
Definition TypeError : exn := py_error "TypeError".
Definition KeyError : exn := py_error "KeyError".

Inductive outcome (A : Type) : Type :=
| Ok (v : A)
| Raise (e : exn).
Arguments Ok {A} v.
Arguments Raise {A} e.

(** ** Remote objects *)

(** An open remote file (a Paramiko [SFTPFile]). *)
Definition handle : Type := nat.

(** The [filename] argument of [stat] and [setstat]: a path, or a handle
    in the fstat and fsetstat variants. *)
Inductive operand : Type :=
| OPath (p : string)
| OHandle (h : handle).

(** The fields of a Paramiko [SFTPAttributes] that the storage reads. *)
Record SFTPAttributes : Type := mk_attrs {
  st_size : pyval;
  st_uid : pyval;
  st_gid : pyval;
  st_mode : pyval;
  st_atime : pyval;
  st_mtime : pyval
}.

(** The calls the storage makes: methods of the client ([C...]) and
    methods of an open file ([H...]). *)
Inductive call : Type :=
| CStat (f : operand)
| CLstat (f : operand)
| COpen (p : string) (paramiko_mode : string)
| CListdir (p : string)
| CMkdir (p : string) (mode : Z)
| CRmdir (p : string)
| CRemove (p : string)
| CRename (oldpath newpath : string)
| CSymlink (source dest : string)
| CReadlink (p : string)
| CTruncate (f : operand) (size : pyval)
| CChown (f : operand) (uid gid : pyval)
| CChmod (f : operand) (perm : pyval)
| CUtime (f : operand) (times : pyval * pyval)
| HStat (h : handle)
| HSeek (h : handle) (off : Z)
| HRead (h : handle) (size : Z)
| HWrite (h : handle) (chunk : list byte)
| HClose (h : handle)
| HTruncate (h : handle) (size : pyval)
| HChown (h : handle) (uid gid : pyval)
| HChmod (h : handle) (perm : pyval)
| HUtime (h : handle) (times : pyval * pyval).

(** What each call returns when it does not raise. *)
Definition ret (c : call) : Type :=
  match c with
  | CStat _ | CLstat _ | HStat _ => SFTPAttributes
  | COpen _ _ => handle
  | CListdir _ => list string
  | CReadlink _ => option string
  | HRead _ _ => list byte
  | _ => unit
  end.

(** ** Truth values and string helpers *)

Definition truthy (z : Z) : bool := negb (z =? 0).

(** [str.encode()] *)
Definition encode (s : string) : list byte := list_byte_of_string s.

Definition startswith_sep (s : string) : bool :=
  match s with
  | String c _ => Ascii.eqb c "/"%char
  | EmptyString => false
  end.

Fixpoint endswith_sep (s : string) : bool :=
  match s with
  | EmptyString => false
  | String c EmptyString => Ascii.eqb c "/"%char
  | String _ rest => endswith_sep rest
  end.

(** [os.path.join(a, b)] of posixpath, for two components. *)
Definition path_join (a b : string) : string :=
  if startswith_sep b then b
  else if (String.length a =? 0)%nat || endswith_sep a then String.append a b
  else String.append a (String.append "/" b).

(** ** Generators *)

(** The generator expression [(f.encode() for f in l)]: the list is fixed
    when the generator is created, an element is encoded when it is
    asked for. *)
Record generator : Type := mk_gen { gen_pending : list string }.

(** [next(g)]: [None] stands for [StopIteration]. *)
Definition gen_next (g : generator) : option (list byte) * generator :=
  match gen_pending g with
  | [] => (None, g)
  | f :: rest => (Some (encode f), mk_gen rest)
  end.

(** Consuming a generator to the end, as [list(g)] does. *)
Fixpoint gen_drain_aux (fuel : nat) (g : generator) (acc : list (list byte))
  : list (list byte) * generator :=
  match fuel with
  | O => (acc, g)
  | S n =>
      match gen_next g with
      | (None, g') => (acc, g')
      | (Some b, g') => gen_drain_aux n g' (acc ++ [b])
      end
  end.

Definition gen_drain (g : generator) : list (list byte) * generator :=
  gen_drain_aux (S (length (gen_pending g))) g [].

(** ** Concrete instances

    The values of the flag constants on Linux, and small scripted clients
    over a remote side without state, used to run the storage on concrete
    inputs. *)

Module Linux.
Definition O_WRONLY : Z := 1.
Definition O_RDWR : Z := 2.
Definition O_CREAT : Z := 64.
Definition O_EXCL : Z := 128.
Definition O_TRUNC : Z := 512.
Definition O_APPEND : Z := 1024.
End Linux.

Definition ENOENT : Z := 2.

(** [IOError(errno, strerror)] of Python 2: not an [OSError]. *)
Definition IOError_py2 (errno : Z) (strerror : string) : exn :=
  {| exn_class := "IOError"; is_IOError := true; is_OSError := false;
     exn_errno := VInt errno; exn_strerror := VStr strerror;
     exn_args := [VInt errno; VStr strerror] |}.

(** Paramiko's [SSHException], raised for protocol failures. *)
Definition SSHException : exn := py_error "SSHException".

Definition link_attrs : SFTPAttributes :=
  {| st_size := VInt 7; st_uid := VInt 1000; st_gid := VInt 1000;
     st_mode := VInt 41471; st_atime := VInt 10; st_mtime := VInt 20 |}.

Definition default_answer (c : call) : ret c :=
  match c with
  | CStat _ | CLstat _ | HStat _ => link_attrs
  | COpen _ _ => 3%nat
  | CListdir _ => ["a"; "b"]%string
  | CReadlink _ => Some "target"%string
  | HRead _ _ => []
  | _ => tt
  end.

(** A client that raises [e] on the calls selected by [fails] and answers
    every other call. *)
Definition stub_client (fails : call -> bool) (e : exn) (c : call) (s : unit)
  : outcome (ret c) * unit :=
  if fails c then (Raise e, s) else (Ok (default_answer c), s).

Definition is_stat_call (c : call) : bool :=
  match c with CStat _ => true | _ => false end.

Definition is_remove_call (c : call) : bool :=
  match c with CRemove _ => true | _ => false end.

Definition is_chown_call (c : call) : bool :=
  match c with CChown _ _ _ => true | _ => false end.

Definition is_write_call (c : call) : bool :=
  match c with HWrite _ _ => true | _ => false end.

Definition is_read_call (c : call) : bool :=
  match c with HRead _ _ => true | _ => false end.

Definition no_call (c : call) : bool := false.

Definition stub_longname (st : SFTPAttributes) (f : operand) : pyval :=
  match f with
  | OPath p => VStr p
  | OHandle _ => VNone
  end.

(** A flag bit outside the six the storage looks at. *)
Definition O_NONBLOCK : Z := 2048.


(** [FileNotFoundError(errno, strerror)] of Python 3, where every
    [IOError] is an [OSError]. *)
Definition FileNotFoundError_py3 (strerror : string) : exn :=
  {| exn_class := "FileNotFoundError"; is_IOError := true;
     is_OSError := true;
     exn_errno := VInt ENOENT; exn_strerror := VStr strerror;
     exn_args := [VInt ENOENT; VStr strerror] |}.

Definition is_seek_call (c : call) : bool :=
  match c with HSeek _ _ => true | _ => false end.

Section ProxyStorage.

(** ** Parameters *)

(** The flag constants of the [os] module; their values are the
    platform's. *)
Variables O_WRONLY O_RDWR O_APPEND O_CREAT O_TRUNC O_EXCL : Z.

(** The remote side: its state and how the Paramiko client answers a
    call. *)
Variable R : Type.
Variable client : forall c : call, R -> outcome (ret c) * R.

(** Modelled from the spec: [stat_to_longname] of stat_helpers.py, a
    helper imported by proxystorage.py: "a formatted one-line listing
    string derived from the resolved stat fields and the entry name". *)
Variable stat_to_longname : SFTPAttributes -> operand -> pyval.

(** ** The state and the monad of the storage *)

Record world : Type := mk_world {
  remote : R;
  trace : list call
}.

Definition M (A : Type) : Type := world -> outcome A * world.

Definition pure {A} (v : A) : M A := fun w => (Ok v, w).

Definition raise {A} (e : exn) : M A := fun w => (Raise e, w).

Definition bind {A B} (m : M A) (k : A -> M B) : M B :=
  fun w =>
    match m w with
    | (Ok v, w') => k v w'
    | (Raise e, w') => (Raise e, w')
    end.

(** [try: m except: h] with a bare [except]. *)
Definition try_except {A} (m : M A) (h : M A) : M A :=
  fun w =>
    match m w with
    | (Ok v, w') => (Ok v, w')
    | (Raise _, w') => h w'
    end.

Notation "x <- m ;; k" := (bind m (fun x => k))
  (at level 100, m at next level, right associativity).
Notation "m ;;; k" := (bind m (fun _ => k))
  (at level 100, right associativity).

(** One call to the remote side. *)
Definition remote_call (c : call) : M (ret c) :=
  fun w =>
    let (r, s) := client c (remote w) in
    (r, {| remote := s; trace := trace w ++ [c] |}).

(** A method looked up on [filename]: only an open file has it. *)
Definition as_handle (f : operand) : M handle :=
  match f with
  | OHandle h => pure h
  | OPath _ => raise AttributeError
  end.

(** [os.path.join(parent, filename)]: the components must be paths. *)
Definition os_path_join (parent : string) (f : operand) : M operand :=
  match f with
  | OPath p => pure (OPath (path_join parent p))
  | OHandle _ => raise TypeError
  end.

(** ** exception_wrapper *)

Definition normalize (e : exn) : exn :=
  if is_IOError e then
    if negb (is_OSError e) then OSError (exn_errno e) (exn_strerror e)
    else e
  else e.

Definition exception_wrapper {A} (method : M A) : M A :=
  fun w =>
    match method w with
    | (Ok v, w') => (Ok v, w')
    | (Raise e, w') =>
        if is_IOError e then
          if negb (is_OSError e) then
            (Raise (OSError (exn_errno e) (exn_strerror e)), w')
          else (Raise e, w')
        else (Raise e, w')
    end.

(** ** flags_to_mode *)

Definition flags_to_mode (flags mode : Z) : string :=
  let paramiko_mode :=
    if truthy (Z.land flags O_WRONLY)
       || (truthy (Z.land flags O_WRONLY) && truthy (Z.land flags O_TRUNC))
    then "w"
    else if truthy (Z.land flags O_RDWR) && truthy (Z.land flags O_APPEND)
    then "a+"
    else if truthy (Z.land flags O_RDWR) && truthy (Z.land flags O_CREAT)
    then "w+"
    else if truthy (Z.land flags O_APPEND)
    then "a"
    else if truthy (Z.land flags O_RDWR) && truthy (Z.land flags O_TRUNC)
    then "w+"
    else if truthy (Z.land flags O_RDWR)
    then "r+"
    else if truthy (Z.land flags O_CREAT)
    then "w"
    else "r" in
  if truthy (Z.land flags O_CREAT) && truthy (Z.land flags O_EXCL)
  then String.append paramiko_mode "x"
  else paramiko_mode.

(** The decision table as the specification words it: an ordered list of
    rules, each a list of alternatives, each alternative a set of bits
    that must all be present. *)
Inductive flag_bit : Type :=
| WriteOnly | ReadWrite | Append | Create | Truncate | Exclusive.

Definition bit_of (b : flag_bit) : Z :=
  match b with
  | WriteOnly => O_WRONLY
  | ReadWrite => O_RDWR
  | Append => O_APPEND
  | Create => O_CREAT
  | Truncate => O_TRUNC
  | Exclusive => O_EXCL
  end.

Definition has_bit (flags : Z) (b : flag_bit) : bool :=
  truthy (Z.land flags (bit_of b)).

Definition rule : Type := list (list flag_bit) * string.

Definition decision_table : list rule :=
  [ ([[WriteOnly]; [WriteOnly; Truncate]], "w");
    ([[ReadWrite; Append]], "a+");
    ([[ReadWrite; Create]], "w+");
    ([[Append]], "a");
    ([[ReadWrite; Truncate]], "w+");
    ([[ReadWrite]], "r+");
    ([[Create]], "w") ]%string.

Definition rule_matches (flags : Z) (r : rule) : bool :=
  existsb (forallb (has_bit flags)) (fst r).

Fixpoint first_match (flags : Z) (table : list rule) (default : string)
  : string :=
  match table with
  | [] => default
  | r :: rest =>
      if rule_matches flags r then snd r else first_match flags rest default
  end.

Definition table_mode (flags : Z) : string :=
  String.append (first_match flags decision_table "r")
    (if has_bit flags Create && has_bit flags Exclusive then "x" else "").

(** ** The storage methods *)

(** [try: m except: return h else: return els], with a bare [except]. *)
Definition try_except_else {A B} (m : M A) (h els : M B) : M B :=
  fun w =>
    match m w with
    | (Ok _, w') => els w'
    | (Raise _, w') => h w'
    end.

Definition verify (filename : string) : bool := true.

(** [not parent]: [None] and the empty string are false. *)
Definition not_parent (parent : option string) : bool :=
  match parent with
  | None => true
  | Some p => (String.length p =? 0)%nat
  end.

(** [filename if not parent else os.path.join(parent, filename)] *)
Definition stat_target (filename : operand) (parent : option string)
  : M operand :=
  match parent with
  | None => pure filename
  | Some p => if not_parent parent then pure filename
              else os_path_join p filename
  end.

Definition stat_dict (_stat : SFTPAttributes) (longname : pyval)
  : gmap string pyval :=
  <["size" := st_size _stat]>
  (<["uid" := st_uid _stat]>
  (<["gid" := st_gid _stat]>
  (<["perm" := st_mode _stat]>
  (<["atime" := st_atime _stat]>
  (<["mtime" := st_mtime _stat]>
  (<["longname" := longname]> ∅)))))).

Definition stat (filename : operand) (parent : option string)
  (lstat fstat : bool) : M (gmap string pyval) :=
  exception_wrapper
    (_stat <- (if negb lstat && fstat then
                 h <- as_handle filename ;;
                 remote_call (HStat h)
               else if lstat then
                 remote_call (CLstat filename)
               else
                 try_except
                   (p <- stat_target filename parent ;;
                    remote_call (CStat p))
                   (p <- stat_target filename parent ;;
                    remote_call (CLstat p))) ;;
     let longname :=
       if fstat then VNone else stat_to_longname _stat filename in
     pure (stat_dict _stat longname)).

(** [k in attrs] and [attrs[k]] *)
Definition contains (attrs : gmap string pyval) (k : string) : bool :=
  match attrs !! k with
  | Some _ => true
  | None => false
  end.

Definition getitem (attrs : gmap string pyval) (k : string) : M pyval :=
  match attrs !! k with
  | Some v => pure v
  | None => raise KeyError
  end.

Definition setstat (filename : operand) (attrs : gmap string pyval)
  (fsetstat : bool) : M unit :=
  exception_wrapper
    ((if contains attrs "size" && negb fsetstat then
        size <- getitem attrs "size" ;;
        remote_call (CTruncate filename size)
      else if contains attrs "size" then
        h <- as_handle filename ;;
        size <- getitem attrs "size" ;;
        remote_call (HTruncate h size)
      else pure tt) ;;;
     let _chown := contains attrs "uid" && contains attrs "gid" in
     (if _chown && negb fsetstat then
        uid <- getitem attrs "uid" ;;
        gid <- getitem attrs "gid" ;;
        remote_call (CChown filename uid gid)
      else if _chown then
        h <- as_handle filename ;;
        uid <- getitem attrs "uid" ;;
        gid <- getitem attrs "gid" ;;
        remote_call (HChown h uid gid)
      else pure tt) ;;;
     (if contains attrs "perm" && negb fsetstat then
        perm <- getitem attrs "perm" ;;
        remote_call (CChmod filename perm)
      else if contains attrs "perm" then
        h <- as_handle filename ;;
        perm <- getitem attrs "perm" ;;
        remote_call (HChmod h perm)
      else pure tt) ;;;
     let _utime := contains attrs "atime" && contains attrs "mtime" in
     (if _utime && negb fsetstat then
        atime <- getitem attrs "atime" ;;
        mtime <- getitem attrs "mtime" ;;
        remote_call (CUtime filename (atime, mtime))
      else if _utime then
        h <- as_handle filename ;;
        atime <- getitem attrs "atime" ;;
        mtime <- getitem attrs "mtime" ;;
        remote_call (HUtime h (atime, mtime))
      else pure tt)).

Definition opendir (filename : string) : M generator :=
  exception_wrapper
    (l <- remote_call (CListdir filename) ;;
     pure (mk_gen (l ++ ["."; ".."]%string))).

Definition open (filename : string) (flags mode : Z) : M handle :=
  exception_wrapper
    (let paramiko_mode := flags_to_mode flags mode in
     remote_call (COpen filename paramiko_mode)).

Definition mkdir (filename : string) (mode : Z) : M unit :=
  exception_wrapper (remote_call (CMkdir filename mode)).

Definition rmdir (filename : string) : M unit :=
  exception_wrapper (remote_call (CRmdir filename)).

Definition rm (filename : string) : M unit :=
  exception_wrapper (remote_call (CRemove filename)).

Definition rename (oldpath newpath : string) : M unit :=
  exception_wrapper (remote_call (CRename oldpath newpath)).

Definition symlink (linkpath targetpath : string) : M unit :=
  exception_wrapper (remote_call (CSymlink targetpath linkpath)).

Definition readlink (filename : string) : M (list byte) :=
  exception_wrapper
    (l <- remote_call (CReadlink filename) ;;
     match l with
     | Some s => pure (encode s)
     | None => raise AttributeError
     end).

Definition write (h : handle) (off : Z) (chunk : list byte) : M bool :=
  try_except_else
    (remote_call (HSeek h off) ;;;
     remote_call (HWrite h chunk))
    (pure false)
    (pure true).

Definition read (h : handle) (off size : Z) : M (list byte) :=
  remote_call (HSeek h off) ;;;
  remote_call (HRead h size).

Definition close (h : handle) : M unit :=
  exception_wrapper (remote_call (HClose h)).

(** ** Specification-level descriptions *)

(** What the wrapper does to an outcome. *)
Definition normalize_outcome {A} (o : outcome A) : outcome A :=
  match o with
  | Ok v => Ok v
  | Raise e => Raise (normalize e)
  end.

(** A request forwarded as the single call [c]: the client's answer,
    normalized, and [c] appended to the trace. *)
Definition forwarded (c : call) (w : world) : outcome (ret c) * world :=
  (normalize_outcome (fst (client c (remote w))),
   {| remote := snd (client c (remote w)); trace := trace w ++ [c] |}).

(** The attribute categories of [setstat], in the order of the
    specification, and the remote call each one stands for when its keys
    are all present. *)
Inductive category : Type :=
| Size | Ownership | Permission | Timestamps.

Definition categories : list category :=
  [Size; Ownership; Permission; Timestamps].

Definition path_call (filename : operand) (attrs : gmap string pyval)
  (c : category) : option call :=
  match c with
  | Size =>
      match attrs !! "size" with
      | Some size => Some (CTruncate filename size)
      | None => None
      end
  | Ownership =>
      match attrs !! "uid", attrs !! "gid" with
      | Some uid, Some gid => Some (CChown filename uid gid)
      | _, _ => None
      end
  | Permission =>
      match attrs !! "perm" with
      | Some perm => Some (CChmod filename perm)
      | None => None
      end
  | Timestamps =>
      match attrs !! "atime", attrs !! "mtime" with
      | Some atime, Some mtime => Some (CUtime filename (atime, mtime))
      | _, _ => None
      end
  end.

Definition handle_call (h : handle) (attrs : gmap string pyval)
  (c : category) : option call :=
  match c with
  | Size =>
      match attrs !! "size" with
      | Some size => Some (HTruncate h size)
      | None => None
      end
  | Ownership =>
      match attrs !! "uid", attrs !! "gid" with
      | Some uid, Some gid => Some (HChown h uid gid)
      | _, _ => None
      end
  | Permission =>
      match attrs !! "perm" with
      | Some perm => Some (HChmod h perm)
      | None => None
      end
  | Timestamps =>
      match attrs !! "atime", attrs !! "mtime" with
      | Some atime, Some mtime => Some (HUtime h (atime, mtime))
      | _, _ => None
      end
  end.

Definition setstat_plan (step : category -> option call) : list call :=
  omap step categories.

(** Calls made one after the other; the first failure ends the run. *)
Fixpoint run_plan (plan : list call) : M unit :=
  match plan with
  | [] => pure tt
  | c :: rest => remote_call c ;;; run_plan rest
  end.

(** The path the default variant of [stat] queries. *)
Definition joined (parent : option string) (p : string) : string :=
  match parent with
  | None => p
  | Some q => if (String.length q =? 0)%nat then p else path_join q p
  end.

Definition succeeds {A} (o : outcome A) : bool :=
  match o with Ok _ => true | Raise _ => false end.

Definition is_close_call (c : call) : bool :=
  match c with HClose _ => true | _ => false end.

Definition is_handle_stat_call (c : call) : bool :=
  match c with HStat _ => true | _ => false end.

(** The operations decorated with [exception_wrapper], as requests, so
    that a statement can range over all of them. *)
Inductive request : Type :=
| ReqStat (filename : operand) (parent : option string) (lstat fstat : bool)
| ReqSetstat (filename : operand) (attrs : gmap string pyval) (fsetstat : bool)
| ReqOpendir (filename : string)
| ReqOpen (filename : string) (flags mode : Z)
| ReqMkdir (filename : string) (mode : Z)
| ReqRmdir (filename : string)
| ReqRm (filename : string)
| ReqRename (oldpath newpath : string)
| ReqSymlink (linkpath targetpath : string)
| ReqReadlink (filename : string)
| ReqClose (h : handle).

(** Running a computation for its effect and its failure only. *)
Definition void {A} (m : M A) : M unit :=
  fun w =>
    match m w with
    | (Ok _, w') => (Ok tt, w')
    | (Raise e, w') => (Raise e, w')
    end.

Definition serve (r : request) : M unit :=
  match r with
  | ReqStat filename parent lstat fstat =>
      void (stat filename parent lstat fstat)
  | ReqSetstat filename attrs fsetstat => setstat filename attrs fsetstat
  | ReqOpendir filename => void (opendir filename)
  | ReqOpen filename flags mode => void (open filename flags mode)
  | ReqMkdir filename mode => mkdir filename mode
  | ReqRmdir filename => rmdir filename
  | ReqRm filename => rm filename
  | ReqRename oldpath newpath => rename oldpath newpath
  | ReqSymlink linkpath targetpath => symlink linkpath targetpath
  | ReqReadlink filename => void (readlink filename)
  | ReqClose h => close h
  end.

(** The requests that always start with one given remote call. *)
Definition first_call (r : request) : option call :=
  match r with
  | ReqStat filename _ true _ => Some (CLstat filename)
  | ReqStat (OHandle h) _ false true => Some (HStat h)
  | ReqStat _ _ false _ => None
  | ReqSetstat _ _ _ => None
  | ReqOpendir filename => Some (CListdir filename)
  | ReqOpen filename flags mode =>
      Some (COpen filename (flags_to_mode flags mode))
  | ReqMkdir filename mode => Some (CMkdir filename mode)
  | ReqRmdir filename => Some (CRmdir filename)
  | ReqRm filename => Some (CRemove filename)
  | ReqRename oldpath newpath => Some (CRename oldpath newpath)
  | ReqSymlink linkpath targetpath => Some (CSymlink targetpath linkpath)
  | ReqReadlink filename => Some (CReadlink filename)
  | ReqClose h => Some (HClose h)
  end.

(** ** Further descriptions *)

(** The mode tokens [flags_to_mode] can return. *)
Definition mode_tokens : list string :=
  ["r"; "w"; "a"; "r+"; "w+"; "a+"; "wx"; "ax"; "w+x"; "a+x"]%string.

Fixpoint ends_with_x (s : string) : bool :=
  match s with
  | EmptyString => false
  | String c EmptyString => Ascii.eqb c "x"%char
  | String _ rest => ends_with_x rest
  end.

(** The calls that ask for the attributes of a file. *)
Definition is_stat_query (c : call) : bool :=
  match c with
  | CStat _ | CLstat _ | HStat _ => true
  | _ => false
  end.

(** The keys [setstat] looks at, and the keys [stat] returns. *)
Definition setstat_keys : list string :=
  ["size"; "uid"; "gid"; "perm"; "atime"; "mtime"]%string.

Definition stat_keys : gset string :=
  {[ "size"; "uid"; "gid"; "perm"; "atime"; "mtime"; "longname" ]}%string.

(** The calls [setstat] may make for an operand, an attribute set and a
    variant: a path has no methods, so the handle variant on a path makes
    none. *)
Definition plan_of (filename : operand) (attrs : gmap string pyval)
  (fsetstat : bool) : list call :=
  if fsetstat then
    match filename with
    | OHandle h => setstat_plan (handle_call h attrs)
    | OPath _ => []
    end
  else setstat_plan (path_call filename attrs).

(** ** The wrapper *)

Lemma exception_wrapper_spec {A} (method : M A) (w : world) :
  exception_wrapper method w
  = (normalize_outcome (fst (method w)), snd (method w)).
Proof.
  unfold exception_wrapper, normalize_outcome, normalize.
  destruct (method w) as [[v | e] w']; simpl; [reflexivity |].
  destruct (is_IOError e); [destruct (is_OSError e) |]; reflexivity.
Qed.

Lemma forward_one (c : call) (w : world) :
  exception_wrapper (remote_call c) w = forwarded c w.
Proof.
  rewrite exception_wrapper_spec. unfold remote_call, forwarded.
  destruct (client c (remote w)) as [o s]. reflexivity.
Qed.

Lemma normalize_IOError (e : exn) :
  is_IOError e = true ->
  is_OSError (normalize e) = true
  /\ exn_errno (normalize e) = exn_errno e
  /\ exn_strerror (normalize e) = exn_strerror e.
Proof.
  intros HIO. unfold normalize. rewrite HIO.
  destruct (is_OSError e) eqn:HOS; simpl; auto.
Qed.

Lemma normalize_other (e : exn) :
  is_IOError e = false -> normalize e = e.
Proof. intros HIO. unfold normalize. now rewrite HIO. Qed.

(** ** flags_to_mode *)

(** C1: for every flag set, [flags_to_mode] returns the token of the
    ordered decision table of the specification, the first matching rule
    winning, with [x] appended when both the create and the exclusive bits
    are set. *)
Theorem flags_to_mode_decision_table (flags mode : Z) :
  flags_to_mode flags mode = table_mode flags.
Proof.
  unfold flags_to_mode, table_mode, decision_table, has_bit.
  cbn [first_match rule_matches existsb forallb fst snd bit_of].
  unfold has_bit. cbn [bit_of].
  destruct (truthy (Z.land flags O_WRONLY));
    destruct (truthy (Z.land flags O_RDWR));
    destruct (truthy (Z.land flags O_APPEND));
    destruct (truthy (Z.land flags O_CREAT));
    destruct (truthy (Z.land flags O_TRUNC));
    destruct (truthy (Z.land flags O_EXCL));
    reflexivity.
Qed.

(** C7: the [mode] argument has no influence on the result of
    [flags_to_mode], and none on what [open] does: the creation mode is
    accepted and not forwarded. *)
Theorem flags_to_mode_ignores_mode (flags m1 m2 : Z) :
  flags_to_mode flags m1 = flags_to_mode flags m2
  /\ forall (filename : string) (w : world),
       open filename flags m1 w = open filename flags m2 w.
Proof.
  split; [reflexivity |]. intros filename w. reflexivity.
Qed.

(** ** symlink *)

(** C10: [symlink linkpath targetpath] makes exactly one remote call,
    the client's [symlink] with the arguments swapped, target first and
    link second, and hands back its (normalized) outcome. *)
Theorem symlink_swaps_arguments (linkpath targetpath : string) (w : world) :
  symlink linkpath targetpath w = forwarded (CSymlink targetpath linkpath) w
  /\ trace (snd (symlink linkpath targetpath w))
     = trace w ++ [CSymlink targetpath linkpath].
Proof.
  unfold symlink. rewrite forward_one. split; reflexivity.
Qed.

(** ** stat *)



(** C8: with both [lstat] and [fstat] set the lstat branch is taken: the
    operand goes to the client's [lstat] as it is, no call is made on a
    handle, and [longname] is [None] in the result because [fstat] is
    set. *)
Theorem stat_lstat_wins_over_fstat
  (filename : operand) (parent : option string) (w : world) :
  stat filename parent true true w =
    match client (CLstat filename) (remote w) with
    | (Ok st, s) =>
        (Ok (stat_dict st VNone),
         {| remote := s; trace := trace w ++ [CLstat filename] |})
    | (Raise e, s) =>
        (Raise (normalize e),
         {| remote := s; trace := trace w ++ [CLstat filename] |})
    end
  /\ existsb is_handle_stat_call
       (skipn (length (trace w)) (trace (snd (stat filename parent true true w))))
     = false
  /\ forall st : SFTPAttributes,
       stat_dict st VNone !! "longname" = Some VNone.
Proof.
  assert (Heq : stat filename parent true true w =
    match client (CLstat filename) (remote w) with
    | (Ok st, s) =>
        (Ok (stat_dict st VNone),
         {| remote := s; trace := trace w ++ [CLstat filename] |})
    | (Raise e, s) =>
        (Raise (normalize e),
         {| remote := s; trace := trace w ++ [CLstat filename] |})
    end).
  { unfold stat. rewrite exception_wrapper_spec.
    unfold bind, remote_call. cbn [negb andb].
    destruct (client (CLstat filename) (remote w)) as [[st | e] s];
      reflexivity. }
  split; [exact Heq |]. split.
  - rewrite Heq.
    destruct (client (CLstat filename) (remote w)) as [[st | e] s];
      cbn [snd trace]; rewrite skipn_app, skipn_all, Nat.sub_diag;
      reflexivity.
  - intros st. unfold stat_dict.
    repeat (rewrite lookup_insert_ne by discriminate).
    apply lookup_insert_eq.
Qed.

(** ** write and close *)

Lemma write_spec (h : handle) (off : Z) (chunk : list byte) (w : world) :
  write h off chunk w =
    match client (HSeek h off) (remote w) with
    | (Raise _, s) =>
        (Ok false, {| remote := s; trace := trace w ++ [HSeek h off] |})
    | (Ok _, s) =>
        match client (HWrite h chunk) s with
        | (Ok _, s') =>
            (Ok true,
             {| remote := s';
                trace := trace w ++ [HSeek h off; HWrite h chunk] |})
        | (Raise _, s') =>
            (Ok false,
             {| remote := s';
                trace := trace w ++ [HSeek h off; HWrite h chunk] |})
        end
    end.
Proof.
  unfold write, try_except_else, bind, remote_call, pure.
  destruct (client (HSeek h off) (remote w)) as [[v | e] s]; cbn;
    [| reflexivity].
  destruct (client (HWrite h chunk) s) as [[v' | e'] s']; cbn;
    rewrite <- app_assoc; reflexivity.
Qed.

(** C4: [write] always returns a boolean and never raises.  It seeks the
    handle to the offset and, when the seek succeeded, writes the chunk:
    these are the remote calls it makes, in this order, and the state it
    leaves is the one the last of them left.  The boolean is [true] when
    both calls succeed and [false] on any failure.  It makes no [close]
    call, and a [close] after it reaches the handle as the next call. *)
Theorem write_returns_boolean
  (h : handle) (off : Z) (chunk : list byte) (w : world) :
  let seek := client (HSeek h off) (remote w) in
  let sent := client (HWrite h chunk) (snd seek) in
  exists (b : bool) (w' : world) (calls : list call),
    write h off chunk w = (Ok b, w')
    /\ b = succeeds (fst seek) && succeeds (fst sent)
    /\ trace w' = trace w ++ calls
    /\ calls = HSeek h off
                 :: (if succeeds (fst seek) then [HWrite h chunk] else [])
    /\ remote w' = (if succeeds (fst seek) then snd sent else snd seek)
    /\ existsb is_close_call calls = false
    /\ close h w' = forwarded (HClose h) w'
    /\ trace (snd (close h w')) = trace w ++ calls ++ [HClose h].
Proof.
  intros seek sent. subst seek sent. rewrite write_spec.
  destruct (client (HSeek h off) (remote w)) as [[v | e] s]; cbn [fst snd].
  - destruct (client (HWrite h chunk) s) as [[v' | e'] s'];
      eexists _, _, _; (split; [reflexivity |]);
      (split; [reflexivity |]); (split; [reflexivity |]);
      (split; [reflexivity |]); (split; [reflexivity |]);
      (split; [reflexivity |]);
      (split; [apply (forward_one (HClose h)) |]);
      unfold close; rewrite (forward_one (HClose h)); cbn;
      now rewrite <- app_assoc.
  - eexists _, _, _; (split; [reflexivity |]);
      (split; [reflexivity |]); (split; [reflexivity |]);
      (split; [reflexivity |]); (split; [reflexivity |]);
      (split; [reflexivity |]);
      (split; [apply (forward_one (HClose h)) |]);
      unfold close; rewrite (forward_one (HClose h)); cbn;
      now rewrite <- app_assoc.
Qed.

(** ** opendir *)

Lemma gen_drain_aux_all (l : list string) (n : nat) (acc : list (list byte)) :
  (length l < n)%nat ->
  gen_drain_aux n (mk_gen l) acc = (acc ++ map encode l, mk_gen []).
Proof.
  revert n acc. induction l as [| f rest IH]; intros n acc Hn.
  - destruct n as [| n]; [inversion Hn |]. cbn. now rewrite app_nil_r.
  - destruct n as [| n]; [inversion Hn |]. cbn.
    rewrite IH by (cbn in Hn; apply PeanoNat.lt_S_n; exact Hn).
    now rewrite <- app_assoc.
Qed.

Lemma gen_drain_all (l : list string) :
  gen_drain (mk_gen l) = (map encode l, mk_gen []).
Proof.
  unfold gen_drain. cbn [gen_pending].
  rewrite gen_drain_aux_all by apply Nat.lt_succ_diag_r. reflexivity.
Qed.

(** C6: [opendir] makes exactly one remote call, the listing of the path,
    and returns a generator that yields the entries of the listing in
    order, then [.] and [..], each encoded to bytes, and is exhausted
    after one pass. *)
Theorem opendir_lists_then_dots (filename : string) (w : world) :
  opendir filename w =
    match client (CListdir filename) (remote w) with
    | (Ok l, s) =>
        (Ok (mk_gen (l ++ ["."; ".."]%string)),
         {| remote := s; trace := trace w ++ [CListdir filename] |})
    | (Raise e, s) =>
        (Raise (normalize e),
         {| remote := s; trace := trace w ++ [CListdir filename] |})
    end
  /\ forall l : list string,
       let g := mk_gen (l ++ ["."; ".."]%string) in
       fst (gen_drain g) = map encode l ++ [encode "."; encode ".."]
       /\ gen_next (snd (gen_drain g)) = (None, snd (gen_drain g)).
Proof.
  split.
  - unfold opendir. rewrite exception_wrapper_spec.
    unfold bind, remote_call, pure.
    destruct (client (CListdir filename) (remote w)) as [[l | e] s];
      reflexivity.
  - intros l g. subst g. rewrite gen_drain_all. cbn [fst snd].
    rewrite map_app. split; reflexivity.
Qed.

(** ** setstat *)

Ltac run_remote_calls :=
  repeat match goal with
         | |- context [client ?c ?s] =>
             let v := fresh "v" in
             let e := fresh "e" in
             let s' := fresh "s" in
             destruct (client c s) as [[v | e] s'];
             [cbn in v; destruct v |]; cbn
         end.

Lemma setstat_path_body (filename : operand) (attrs : gmap string pyval)
  (w : world) :
  setstat filename attrs false w
  = exception_wrapper (run_plan (setstat_plan (path_call filename attrs))) w.
Proof.
  unfold setstat. rewrite !exception_wrapper_spec. f_equal; f_equal;
    unfold setstat_plan, categories, path_call, contains, getitem;
    cbn [omap list_omap];
    destruct (attrs !! "size"), (attrs !! "uid"), (attrs !! "gid"),
      (attrs !! "perm"), (attrs !! "atime"), (attrs !! "mtime");
    cbn; unfold bind, remote_call, pure; cbn;
    run_remote_calls; rewrite <- ?app_assoc; reflexivity.
Qed.

Lemma setstat_handle_body (h : handle) (attrs : gmap string pyval)
  (w : world) :
  setstat (OHandle h) attrs true w
  = exception_wrapper (run_plan (setstat_plan (handle_call h attrs))) w.
Proof.
  unfold setstat. rewrite !exception_wrapper_spec. f_equal; f_equal;
    unfold setstat_plan, categories, handle_call, contains, getitem;
    cbn [omap list_omap];
    destruct (attrs !! "size"), (attrs !! "uid"), (attrs !! "gid"),
      (attrs !! "perm"), (attrs !! "atime"), (attrs !! "mtime");
    cbn; unfold bind, remote_call, pure; cbn;
    run_remote_calls; rewrite <- ?app_assoc; reflexivity.
Qed.

Lemma run_plan_cons (c : call) (rest : list call) (w : world) :
  run_plan (c :: rest) w =
    match client c (remote w) with
    | (Ok _, s) => run_plan rest {| remote := s; trace := trace w ++ [c] |}
    | (Raise e, s) => (Raise e, {| remote := s; trace := trace w ++ [c] |})
    end.
Proof.
  cbn [run_plan]. unfold bind, remote_call.
  destruct (client c (remote w)) as [[v | e] s]; reflexivity.
Qed.

Lemma run_plan_prefix (plan : list call) (w : world) :
  exists n : nat,
    trace (snd (run_plan plan w)) = trace w ++ firstn n plan
    /\ match fst (run_plan plan w) with
       | Ok _ => n = length plan
       | Raise _ => (0 < n <= length plan)%nat
       end.
Proof.
  revert w. induction plan as [| c rest IH]; intros w.
  - exists 0%nat. cbn. rewrite app_nil_r. auto.
  - rewrite run_plan_cons.
    destruct (client c (remote w)) as [[v | e] s].
    + destruct (IH {| remote := s; trace := trace w ++ [c] |})
        as [n [Htr Hout]].
      exists (S n). cbn [firstn length]. rewrite Htr. cbn [trace].
      rewrite <- app_assoc. split; [reflexivity |].
      destruct (fst (run_plan rest {| remote := s; trace := trace w ++ [c] |}));
        lia.
    + exists 1%nat. cbn. split; [reflexivity | lia].
Qed.

(** C5: [setstat] applies the categories in the order size, ownership,
    permission, timestamps, each one only when all of its keys are
    present, as one remote call per category, on the path or on the
    handle; the first call that fails ends the run, so the later
    categories are not applied.  A set without [gid] (or without [uid])
    has no ownership call; the set of [uid] and [gid] alone makes the
    ownership call only; the set of [perm] alone makes the permission call
    only. *)
Theorem setstat_categories_in_order :
  (forall (filename : operand) (attrs : gmap string pyval) (w : world),
     setstat filename attrs false w
     = exception_wrapper
         (run_plan (setstat_plan (path_call filename attrs))) w)
  /\ (forall (h : handle) (attrs : gmap string pyval) (w : world),
        setstat (OHandle h) attrs true w
        = exception_wrapper
            (run_plan (setstat_plan (handle_call h attrs))) w)
  /\ (forall (c : call) (rest : list call) (w : world),
        run_plan (c :: rest) w =
          match client c (remote w) with
          | (Ok _, s) =>
              run_plan rest {| remote := s; trace := trace w ++ [c] |}
          | (Raise e, s) =>
              (Raise e, {| remote := s; trace := trace w ++ [c] |})
          end)
  /\ (forall (plan : list call) (w : world),
        exists n : nat,
          trace (snd (run_plan plan w)) = trace w ++ firstn n plan
          /\ match fst (run_plan plan w) with
             | Ok _ => n = length plan
             | Raise _ => (0 < n <= length plan)%nat
             end)
  /\ (forall (filename : operand) (h : handle) (attrs : gmap string pyval),
        path_call filename (delete "gid" attrs) Ownership = None
        /\ path_call filename (delete "uid" attrs) Ownership = None
        /\ handle_call h (delete "gid" attrs) Ownership = None
        /\ handle_call h (delete "uid" attrs) Ownership = None)
  /\ (forall (filename : operand) (h : handle) (uid gid : pyval),
        let attrs : gmap string pyval :=
          <["uid" := uid]> (<["gid" := gid]> ∅) in
        setstat_plan (path_call filename attrs) = [CChown filename uid gid]
        /\ setstat_plan (handle_call h attrs) = [HChown h uid gid])
  /\ (forall (filename : operand) (h : handle) (perm : pyval),
        let attrs : gmap string pyval := <["perm" := perm]> ∅ in
        setstat_plan (path_call filename attrs) = [CChmod filename perm]
        /\ setstat_plan (handle_call h attrs) = [HChmod h perm]).
Proof.
  split; [exact setstat_path_body |].
  split; [exact setstat_handle_body |].
  split; [exact run_plan_cons |].
  split.
  { exact run_plan_prefix. }
  split.
  { intros filename h attrs. unfold path_call, handle_call.
    rewrite !lookup_delete_eq.
    destruct (attrs !! "uid"), (attrs !! "gid"); repeat split;
      try reflexivity;
      destruct (delete "gid" attrs !! "uid"); reflexivity. }
  split.
  { intros filename h uid gid attrs. subst attrs.
    unfold setstat_plan, categories, path_call, handle_call.
    cbn [omap list_omap].
    repeat (rewrite lookup_insert_eq
            || (rewrite lookup_insert_ne by discriminate)
            || rewrite lookup_empty).
    split; reflexivity. }
  { intros filename h perm attrs. subst attrs.
    unfold setstat_plan, categories, path_call, handle_call.
    cbn [omap list_omap].
    repeat (rewrite lookup_insert_eq
            || (rewrite lookup_insert_ne by discriminate)
            || rewrite lookup_empty).
    split; reflexivity. }
Qed.

(** C9: when no category has all of its keys in the attribute set (no
    [size], not both [uid] and [gid], no [perm], not both [atime] and
    [mtime]), [setstat] makes no remote call and returns, in either
    variant and whatever the operand. *)
Theorem setstat_without_category_is_silent
  (filename : operand) (attrs : gmap string pyval) (fsetstat : bool)
  (w : world) :
  attrs !! "size" = None ->
  attrs !! "uid" = None \/ attrs !! "gid" = None ->
  attrs !! "perm" = None ->
  attrs !! "atime" = None \/ attrs !! "mtime" = None ->
  setstat filename attrs fsetstat w = (Ok tt, w).
Proof.
  intros Hsize Hown Hperm Htime.
  unfold setstat. rewrite exception_wrapper_spec.
  unfold contains, getitem. rewrite Hsize, Hperm.
  destruct Hown as [H1 | H1], Htime as [H2 | H2]; rewrite H1, H2;
    destruct fsetstat; cbn;
    repeat match goal with
           | |- context [match attrs !! ?k with _ => _ end] =>
               destruct (attrs !! k)
           end; reflexivity.
Qed.

(** ** Failures of the wrapped operations *)

Lemma normalize_closed (e : exn) :
  implb (is_IOError (normalize e)) (is_OSError (normalize e)) = true.
Proof.
  unfold normalize.
  destruct (is_IOError e) eqn:HIO; [destruct (is_OSError e) eqn:HOS |]; cbn;
    rewrite ?HIO, ?HOS; reflexivity.
Qed.

Lemma wrapper_raises_closed {A} (method : M A) (w : world) :
  match fst (void (exception_wrapper method) w) with
  | Ok _ => True
  | Raise e' => implb (is_IOError e') (is_OSError e') = true
  end.
Proof.
  unfold void. rewrite exception_wrapper_spec.
  destruct (method w) as [[v | e] w']; cbn; [exact I |].
  apply normalize_closed.
Qed.

Lemma void_unit (m : M unit) (w : world) : void m w = m w.
Proof. unfold void. destruct (m w) as [[[] | e] w']; reflexivity. Qed.

Lemma serve_raises_closed (r : request) (w : world) :
  match fst (serve r w) with
  | Ok _ => True
  | Raise e' => implb (is_IOError e') (is_OSError e') = true
  end.
Proof.
  destruct r; cbn [serve];
    try apply wrapper_raises_closed;
    rewrite <- void_unit; apply wrapper_raises_closed.
Qed.

Lemma serve_first_call (r : request) (c : call) (w : world) (e : exn) :
  first_call r = Some c ->
  fst (client c (remote w)) = Raise e ->
  fst (serve r w) = Raise (normalize e)
  /\ trace (snd (serve r w)) = trace w ++ [c].
Proof.
  intros Hc He.
  destruct r as [o parent lstat fstat | o attrs fs | | | | | | | | |];
    [destruct lstat, fstat, o as [p | h] | ..];
    cbn in Hc; inversion Hc; subst c; clear Hc;
    cbn [serve]; unfold void, stat, opendir, open, mkdir, rmdir, rm, rename,
      symlink, readlink, close;
    rewrite exception_wrapper_spec;
    unfold bind, remote_call, as_handle, pure; cbn [negb andb];
    match goal with
    | H : fst (client ?c ?s) = Raise _ |- _ =>
        destruct (client c s) as [[v | e0] s']; cbn in H;
        [discriminate H | inversion H; subst e0]
    end; cbn; split; reflexivity.
Qed.

(** C2, as the code has it: an operation decorated with the wrapper never
    raises an [IOError] that is not an [OSError]; when the remote call such
    an operation starts with fails, the operation stops there and raises
    [OSError] with the same [errno] and [strerror] if the failure is an
    [IOError], and the client's own exception, unchanged, if it is of any
    other type. *)
Theorem wrapped_failure_is_normalized
  (r : request) (c : call) (w : world) (e : exn) :
  first_call r = Some c ->
  fst (client c (remote w)) = Raise e ->
  fst (serve r w) = Raise (normalize e)
  /\ trace (snd (serve r w)) = trace w ++ [c]
  /\ (if is_IOError e
      then is_OSError (normalize e) = true
           /\ exn_errno (normalize e) = exn_errno e
           /\ exn_strerror (normalize e) = exn_strerror e
      else normalize e = e)
  /\ (forall (r' : request) (w' : world),
        match fst (serve r' w') with
        | Ok _ => True
        | Raise e' => implb (is_IOError e') (is_OSError e') = true
        end).
Proof.
  intros Hc He.
  destruct (serve_first_call r c w e Hc He) as [Hraise Htrace].
  split; [exact Hraise |]. split; [exact Htrace |]. split.
  - destruct (is_IOError e) eqn:HIO.
    + now apply normalize_IOError.
    + now apply normalize_other.
  - exact serve_raises_closed.
Qed.

(** ** More on flags_to_mode *)

(** The token is [r] exactly when none of the write-only, read-write,
    append and create bits is set: the truncate and the exclusive bit on
    their own change nothing. *)
Theorem flags_to_mode_reads_without_write_bit (flags mode : Z) :
  String.eqb (flags_to_mode flags mode) "r"
  = negb (truthy (Z.land flags O_WRONLY) || truthy (Z.land flags O_RDWR)
          || truthy (Z.land flags O_APPEND) || truthy (Z.land flags O_CREAT)).
Proof.
  unfold flags_to_mode.
  destruct (truthy (Z.land flags O_WRONLY));
    destruct (truthy (Z.land flags O_RDWR));
    destruct (truthy (Z.land flags O_APPEND));
    destruct (truthy (Z.land flags O_CREAT));
    destruct (truthy (Z.land flags O_TRUNC));
    destruct (truthy (Z.land flags O_EXCL));
    reflexivity.
Qed.

(** The token is always one of ten, and it ends in [x] exactly when the
    create and the exclusive bits are both set: [rx] and [r+x] never
    occur. *)
Theorem flags_to_mode_token (flags mode : Z) :
  In (flags_to_mode flags mode) mode_tokens
  /\ ends_with_x (flags_to_mode flags mode)
     = truthy (Z.land flags O_CREAT) && truthy (Z.land flags O_EXCL).
Proof.
  unfold flags_to_mode, mode_tokens.
  destruct (truthy (Z.land flags O_WRONLY));
    destruct (truthy (Z.land flags O_RDWR));
    destruct (truthy (Z.land flags O_APPEND));
    destruct (truthy (Z.land flags O_CREAT));
    destruct (truthy (Z.land flags O_TRUNC));
    destruct (truthy (Z.land flags O_EXCL));
    cbn; split; try reflexivity; tauto.
Qed.

(** With the write-only bit set the token is [w] ([wx] with create and
    exclusive), whatever the other bits: an append bit next to it is
    dropped. *)
Theorem flags_to_mode_write_only_wins (flags mode : Z) :
  truthy (Z.land flags O_WRONLY) = true ->
  flags_to_mode flags mode
  = if truthy (Z.land flags O_CREAT) && truthy (Z.land flags O_EXCL)
    then "wx"%string else "w"%string.
Proof.
  intros H. unfold flags_to_mode. rewrite H. reflexivity.
Qed.

(** Bits outside the six the function tests have no effect on the
    token. *)
Theorem flags_to_mode_other_bits (flags other mode : Z) :
  Z.land other O_WRONLY = 0 ->
  Z.land other O_RDWR = 0 ->
  Z.land other O_APPEND = 0 ->
  Z.land other O_CREAT = 0 ->
  Z.land other O_TRUNC = 0 ->
  Z.land other O_EXCL = 0 ->
  flags_to_mode (Z.lor flags other) mode = flags_to_mode flags mode.
Proof.
  intros H1 H2 H3 H4 H5 H6. unfold flags_to_mode.
  rewrite !Z.land_lor_distr_l, H1, H2, H3, H4, H5, H6, !Z.lor_0_r.
  reflexivity.
Qed.

(** ** More on exception_wrapper *)

Lemma normalize_idempotent (e : exn) : normalize (normalize e) = normalize e.
Proof.
  unfold normalize.
  destruct (is_IOError e) eqn:HIO; [destruct (is_OSError e) eqn:HOS |]; cbn;
    rewrite ?HIO, ?HOS; reflexivity.
Qed.

(** Decorating twice is decorating once; the wrapper turns no failure into
    a result and no result into a failure, and leaves the state as the
    method left it. *)
Theorem exception_wrapper_idempotent {A} (method : M A) (w : world) :
  exception_wrapper (exception_wrapper method) w = exception_wrapper method w
  /\ succeeds (fst (exception_wrapper method w)) = succeeds (fst (method w))
  /\ snd (exception_wrapper method w) = snd (method w).
Proof.
  rewrite !exception_wrapper_spec. cbn [fst snd].
  destruct (method w) as [[v | e] w']; cbn;
    rewrite ?normalize_idempotent; auto.
Qed.

(** Where every [IOError] is an [OSError], as in Python 3, the wrapper
    changes nothing. *)
Theorem exception_wrapper_identity {A} (method : M A) (w : world) :
  (forall e : exn,
     fst (method w) = Raise e ->
     implb (is_IOError e) (is_OSError e) = true) ->
  exception_wrapper method w = method w.
Proof.
  intros H. unfold exception_wrapper.
  destruct (method w) as [[v | e] w']; [reflexivity |].
  specialize (H e eq_refl).
  destruct (is_IOError e), (is_OSError e); cbn in *;
    try reflexivity; discriminate.
Qed.


(** ** More on stat *)

(** The fstat variant on a handle makes the one call [stat] on the handle,
    ignores [parent] and returns [longname] as [None]; on a path it raises
    [AttributeError] before any remote call. *)
Theorem stat_fstat_variant (parent : option string) (w : world) :
  (forall h : handle,
     stat (OHandle h) parent false true w =
       match client (HStat h) (remote w) with
       | (Ok st, s) =>
           (Ok (stat_dict st VNone),
            {| remote := s; trace := trace w ++ [HStat h] |})
       | (Raise e, s) =>
           (Raise (normalize e),
            {| remote := s; trace := trace w ++ [HStat h] |})
       end)
  /\ (forall p : string,
        stat (OPath p) parent false true w = (Raise AttributeError, w)).
Proof.
  split.
  - intros h. unfold stat. rewrite exception_wrapper_spec.
    unfold bind, remote_call, as_handle, pure. cbn [negb andb].
    destruct (client (HStat h) (remote w)) as [[st | e] s]; reflexivity.
  - intros p. unfold stat. rewrite exception_wrapper_spec. reflexivity.
Qed.

(** The lstat variant does not join the name with [parent]: the client's
    [lstat] gets the operand as it is, and [longname] is made from the
    operand. *)
Theorem stat_lstat_ignores_parent
  (filename : operand) (parent : option string) (w : world) :
  stat filename parent true false w =
    match client (CLstat filename) (remote w) with
    | (Ok st, s) =>
        (Ok (stat_dict st (stat_to_longname st filename)),
         {| remote := s; trace := trace w ++ [CLstat filename] |})
    | (Raise e, s) =>
        (Raise (normalize e),
         {| remote := s; trace := trace w ++ [CLstat filename] |})
    end.
Proof.
  unfold stat. rewrite exception_wrapper_spec.
  unfold bind, remote_call, pure. cbn [negb andb].
  destruct (client (CLstat filename) (remote w)) as [[st | e] s];
    reflexivity.
Qed.

Lemma joined_absolute (p q : string) :
  startswith_sep p = true \/ q = ""%string ->
  joined (Some q) p = p.
Proof.
  intros [H | H]; unfold joined, path_join.
  - rewrite H. now destruct (String.length q =? 0)%nat.
  - subst q. reflexivity.
Qed.

Lemma stat_target_joined (p : string) (parent : option string) :
  stat_target (OPath p) parent = pure (OPath (joined parent p)).
Proof.
  unfold stat_target, joined, not_parent.
  destruct parent as [q |]; [| reflexivity].
  destruct (String.length q =? 0)%nat; reflexivity.
Qed.

(** In the default variant a name that starts with [/] is queried as it
    is, and so is any name when [parent] is the empty string: [stat]
    behaves as if no [parent] had been given. *)
Theorem stat_absolute_name_ignores_parent (p q : string) (w : world) :
  startswith_sep p = true \/ q = ""%string ->
  stat (OPath p) (Some q) false false w = stat (OPath p) None false false w.
Proof.
  intros H. unfold stat.
  rewrite !stat_target_joined, (joined_absolute p q H). reflexivity.
Qed.

Lemma stat_returns_stat_dict
  (filename : operand) (parent : option string) (lstat fstat : bool)
  (w w' : world) (d : gmap string pyval) :
  stat filename parent lstat fstat w = (Ok d, w') ->
  exists st : SFTPAttributes,
    d = stat_dict st
          (if fstat then VNone else stat_to_longname st filename).
Proof.
  unfold stat. rewrite exception_wrapper_spec.
  unfold bind at 1.
  match goal with
  | |- context [match ?m w with _ => _ end] =>
      destruct (m w) as [[st | e] w1]
  end; cbn; intros H; inversion H; subst. now exists st.
Qed.

Lemma stat_dict_dom (st : SFTPAttributes) (longname : pyval) :
  dom (stat_dict st longname) = stat_keys.
Proof.
  unfold stat_dict, stat_keys. rewrite !dom_insert_L, dom_empty_L.
  set_solver.
Qed.

(** A successful [stat], in any variant, returns a dictionary with exactly
    the seven keys [size], [uid], [gid], [perm], [atime], [mtime] and
    [longname]; [longname] is [None] whenever [fstat] is set. *)
Theorem stat_result_keys
  (filename : operand) (parent : option string) (lstat fstat : bool)
  (w w' : world) (d : gmap string pyval) :
  stat filename parent lstat fstat w = (Ok d, w') ->
  dom d = stat_keys
  /\ (if fstat then d !! "longname" = Some VNone
      else is_Some (d !! "longname")).
Proof.
  intros H. destruct (stat_returns_stat_dict _ _ _ _ _ _ _ H) as [st Hd].
  subst d. split; [apply stat_dict_dom |].
  unfold stat_dict.
  repeat (rewrite lookup_insert_ne by discriminate).
  rewrite lookup_insert_eq. destruct fstat; eauto.
Qed.

Lemma stat_dict_plans
  (target : operand) (h : handle) (st : SFTPAttributes) (longname : pyval) :
  setstat_plan (path_call target (stat_dict st longname))
  = [CTruncate target (st_size st);
     CChown target (st_uid st) (st_gid st);
     CChmod target (st_mode st);
     CUtime target (st_atime st, st_mtime st)]
  /\ setstat_plan (handle_call h (stat_dict st longname))
     = [HTruncate h (st_size st);
        HChown h (st_uid st) (st_gid st);
        HChmod h (st_mode st);
        HUtime h (st_atime st, st_mtime st)].
Proof.
  unfold setstat_plan, categories, path_call, handle_call, stat_dict.
  cbn [omap list_omap].
  repeat (rewrite lookup_insert_eq
          || (rewrite lookup_insert_ne by discriminate)).
  split; reflexivity.
Qed.

(** The dictionary a successful [stat] returns, given to [setstat], makes
    [setstat] apply all four categories with the values of that stat:
    truncate to the size, chown to the uid and gid, chmod to the mode,
    utime to the two times, in this order and up to the first failure, on
    a path or on a handle; [longname] is not looked at. *)
Theorem setstat_of_stat_dict
  (filename : operand) (parent : option string) (lstat fstat : bool)
  (w w' : world) (d : gmap string pyval) (target : operand) (h : handle) :
  stat filename parent lstat fstat w = (Ok d, w') ->
  exists st : SFTPAttributes,
    d = stat_dict st (if fstat then VNone else stat_to_longname st filename)
    /\ (forall w2 : world,
          setstat target d false w2
          = exception_wrapper
              (run_plan [CTruncate target (st_size st);
                         CChown target (st_uid st) (st_gid st);
                         CChmod target (st_mode st);
                         CUtime target (st_atime st, st_mtime st)]) w2)
    /\ (forall w2 : world,
          setstat (OHandle h) d true w2
          = exception_wrapper
              (run_plan [HTruncate h (st_size st);
                         HChown h (st_uid st) (st_gid st);
                         HChmod h (st_mode st);
                         HUtime h (st_atime st, st_mtime st)]) w2).
Proof.
  intros H. destruct (stat_returns_stat_dict _ _ _ _ _ _ _ H) as [st Hd].
  exists st. split; [exact Hd |]. subst d.
  destruct (stat_dict_plans target h st
              (if fstat then VNone else stat_to_longname st filename))
    as [Hpath Hhandle].
  split; intros w2.
  - rewrite setstat_path_body, Hpath. reflexivity.
  - rewrite setstat_handle_body, Hhandle. reflexivity.
Qed.

(** ** Which remote calls an operation makes *)

Ltac distinct_calls :=
  repeat (apply NoDup_cons_2 || apply NoDup_nil_2);
  rewrite ?elem_of_cons, ?elem_of_nil; intuition discriminate.

Ltac name_calls :=
  cbn; rewrite <- ?app_assoc; cbn;
  first [ eexists; split; [reflexivity |]
        | exists []; split; [symmetry; apply app_nil_r |] ].

Lemma stat_calls
  (filename : operand) (parent : option string) (lstat fstat : bool)
  (w : world) :
  exists calls : list call,
    trace (snd (stat filename parent lstat fstat w)) = trace w ++ calls
    /\ (length calls <= 2)%nat
    /\ forallb is_stat_query calls = true
    /\ NoDup calls.
Proof.
  unfold stat. rewrite exception_wrapper_spec. cbn [snd].
  destruct lstat, fstat, filename as [p | h]; cbn [negb andb];
    try (destruct parent as [q |];
         [destruct (String.length q =? 0)%nat eqn:Hq |]);
    unfold bind, try_except, stat_target, not_parent, os_path_join,
      as_handle, remote_call, pure, raise; rewrite ?Hq;
    repeat match goal with
           | |- context [client ?c ?s] =>
               destruct (client c s) as [[? | ?] ?]
           end;
    name_calls; (split; [cbn; lia |]); (split; [reflexivity |]);
    distinct_calls.
Qed.

(** [stat] only asks: in every variant and on every operand it makes at
    most two remote calls, each a [stat] or an [lstat] of the client or a
    [stat] of a handle, and none of them twice. *)
Theorem stat_is_read_only
  (filename : operand) (parent : option string) (lstat fstat : bool)
  (w : world) :
  exists calls : list call,
    trace (snd (stat filename parent lstat fstat w)) = trace w ++ calls
    /\ (length calls <= 2)%nat
    /\ forallb is_stat_query calls = true
    /\ NoDup calls.
Proof. apply stat_calls. Qed.

Lemma setstat_path_as_handle
  (p : string) (attrs : gmap string pyval) (w : world) :
  setstat (OPath p) attrs true w
  = (match setstat_plan (path_call (OPath p) attrs) with
     | [] => Ok tt
     | _ :: _ => Raise AttributeError
     end, w).
Proof.
  unfold setstat. rewrite exception_wrapper_spec.
  unfold setstat_plan, categories, path_call, contains, getitem.
  cbn [omap list_omap].
  destruct (attrs !! "size"), (attrs !! "uid"), (attrs !! "gid"),
    (attrs !! "perm"), (attrs !! "atime"), (attrs !! "mtime");
    reflexivity.
Qed.

(** The handle variant of [setstat] on a path never reaches the remote
    side: it returns when no category is complete and raises
    [AttributeError] otherwise, the state being as before in both
    cases. *)
Theorem setstat_handle_variant_on_path
  (p : string) (attrs : gmap string pyval) (w : world) :
  setstat (OPath p) attrs true w
  = (match setstat_plan (path_call (OPath p) attrs) with
     | [] => Ok tt
     | _ :: _ => Raise AttributeError
     end, w).
Proof. apply setstat_path_as_handle. Qed.

(** A key other than the six of the categories, such as [longname], has
    no effect on [setstat]. *)
Theorem setstat_ignores_other_keys
  (filename : operand) (attrs : gmap string pyval) (fsetstat : bool)
  (k : string) (v : pyval) (w : world) :
  ~ In k setstat_keys ->
  setstat filename (<[k := v]> attrs) fsetstat w
  = setstat filename attrs fsetstat w.
Proof.
  intros Hk. unfold setstat_keys in Hk. cbn in Hk.
  unfold setstat, contains, getitem.
  rewrite !(lookup_insert_ne attrs k)
    by (intros Heq; apply Hk; rewrite Heq; auto 10).
  reflexivity.
Qed.

Lemma plan_of_shape
  (filename : operand) (attrs : gmap string pyval) (fsetstat : bool) :
  (length (plan_of filename attrs fsetstat) <= 4)%nat
  /\ NoDup (plan_of filename attrs fsetstat)
  /\ existsb is_close_call (plan_of filename attrs fsetstat) = false.
Proof.
  unfold plan_of, setstat_plan, categories, path_call, handle_call.
  destruct fsetstat; [destruct filename as [p | h] |];
    cbn [omap list_omap];
    destruct (attrs !! "size"), (attrs !! "uid"), (attrs !! "gid"),
      (attrs !! "perm"), (attrs !! "atime"), (attrs !! "mtime");
    cbn; (split; [lia |]); (split; [distinct_calls | reflexivity]).
Qed.

Lemma setstat_calls
  (filename : operand) (attrs : gmap string pyval) (fsetstat : bool)
  (w : world) :
  exists n : nat,
    trace (snd (setstat filename attrs fsetstat w))
    = trace w ++ firstn n (plan_of filename attrs fsetstat).
Proof.
  unfold plan_of. destruct fsetstat; [destruct filename as [p | h] |].
  - exists 0%nat. rewrite setstat_path_as_handle. cbn.
    now rewrite app_nil_r.
  - rewrite setstat_handle_body, exception_wrapper_spec. cbn [snd].
    destruct (run_plan_prefix (setstat_plan (handle_call h attrs)) w)
      as [n [Htr _]]. now exists n.
  - rewrite setstat_path_body, exception_wrapper_spec. cbn [snd].
    destruct (run_plan_prefix (setstat_plan (path_call filename attrs)) w)
      as [n [Htr _]]. now exists n.
Qed.

Lemma existsb_firstn_false {A} (f : A -> bool) (l : list A) (n : nat) :
  existsb f l = false -> existsb f (firstn n l) = false.
Proof.
  revert n. induction l as [| x l IH]; intros [| n] H; cbn in *; auto.
  apply orb_false_iff in H. destruct H as [Hx Hl].
  rewrite Hx. cbn. now apply IH.
Qed.

Lemma void_snd {A} (m : M A) (w : world) : snd (void m w) = snd (m w).
Proof. unfold void. destruct (m w) as [[v | e] w']; reflexivity. Qed.

Lemma forward_one_trace (c : call) (w : world) :
  trace (snd (exception_wrapper (remote_call c) w)) = trace w ++ [c].
Proof. rewrite forward_one. reflexivity. Qed.

Lemma serve_calls (r : request) (w : world) :
  exists calls : list call,
    trace (snd (serve r w)) = trace w ++ calls
    /\ (length calls <= 4)%nat
    /\ NoDup calls
    /\ existsb is_close_call calls
       = match r with ReqClose _ => true | _ => false end.
Proof.
  destruct r as [o parent lstat fstat | o attrs fs | p | p flags mode
                | p mode | p | p | p1 p2 | p1 p2 | p | h]; cbn [serve];
    rewrite ?void_snd.
  - destruct (stat_calls o parent lstat fstat w)
      as [calls [Htr [Hlen [Hq Hnd]]]].
    exists calls. split; [exact Htr |]. split; [lia |].
    split; [exact Hnd |].
    clear Htr Hlen Hnd. induction calls as [| c calls IH]; [reflexivity |].
    cbn in Hq. apply andb_true_iff in Hq. destruct Hq as [Hc Hq].
    cbn. rewrite (IH Hq). now destruct c.
  - destruct (setstat_calls o attrs fs w) as [n Htr].
    destruct (plan_of_shape o attrs fs) as [Hlen [Hnd Hcl]].
    exists (firstn n (plan_of o attrs fs)). split; [exact Htr |].
    split; [rewrite length_take; lia |]. split.
    + exact (sublist_NoDup _ _ Hnd (sublist_take _ n)).
    + now apply existsb_firstn_false.
  - exists [CListdir p]. unfold opendir. rewrite exception_wrapper_spec.
    unfold bind, remote_call, pure. cbn [snd].
    destruct (client (CListdir p) (remote w)) as [[l | e] s]; cbn;
      (split; [reflexivity |]); (split; [lia |]);
      (split; [distinct_calls | reflexivity]).
  - exists [COpen p (flags_to_mode flags mode)].
    split; [exact (forward_one_trace (COpen p (flags_to_mode flags mode)) w) |].
    cbn. split; [lia |]. split; [distinct_calls | reflexivity].
  - exists [CMkdir p mode].
    split; [exact (forward_one_trace (CMkdir p mode) w) |].
    cbn. split; [lia |]. split; [distinct_calls | reflexivity].
  - exists [CRmdir p].
    split; [exact (forward_one_trace (CRmdir p) w) |].
    cbn. split; [lia |]. split; [distinct_calls | reflexivity].
  - exists [CRemove p].
    split; [exact (forward_one_trace (CRemove p) w) |].
    cbn. split; [lia |]. split; [distinct_calls | reflexivity].
  - exists [CRename p1 p2].
    split; [exact (forward_one_trace (CRename p1 p2) w) |].
    cbn. split; [lia |]. split; [distinct_calls | reflexivity].
  - exists [CSymlink p2 p1].
    split; [exact (forward_one_trace (CSymlink p2 p1) w) |].
    cbn. split; [lia |]. split; [distinct_calls | reflexivity].
  - exists [CReadlink p]. unfold readlink. rewrite exception_wrapper_spec.
    unfold bind, remote_call, pure, raise. cbn [snd].
    destruct (client (CReadlink p) (remote w)) as [[[l |] | e] s]; cbn;
      (split; [reflexivity |]); (split; [lia |]);
      (split; [distinct_calls | reflexivity]).
  - exists [HClose h].
    split; [exact (forward_one_trace (HClose h) w) |].
    cbn. split; [lia |]. split; [distinct_calls | reflexivity].
Qed.

(** Nothing is retried: a decorated operation only adds calls to the
    trace, at most four of them, and makes no call twice. *)
Theorem operations_make_few_distinct_calls (r : request) (w : world) :
  exists calls : list call,
    trace (snd (serve r w)) = trace w ++ calls
    /\ (length calls <= 4)%nat
    /\ NoDup calls.
Proof.
  destruct (serve_calls r w) as [calls [Htr [Hlen [Hnd _]]]].
  now exists calls.
Qed.


(** When [setstat] returns, every category whose keys were all present
    has been applied: the calls it made are the whole plan, in order. *)
Theorem setstat_success_applies_all
  (filename : operand) (attrs : gmap string pyval) (fsetstat : bool)
  (w : world) :
  fst (setstat filename attrs fsetstat w) = Ok tt ->
  trace (snd (setstat filename attrs fsetstat w))
  = trace w ++ plan_of filename attrs fsetstat.
Proof.
  unfold plan_of. destruct fsetstat; [destruct filename as [p | h] |].
  - rewrite setstat_path_as_handle. cbn. intros _. now rewrite app_nil_r.
  - rewrite setstat_handle_body, exception_wrapper_spec. cbn [fst snd].
    destruct (run_plan_prefix (setstat_plan (handle_call h attrs)) w)
      as [n [Htr Hn]].
    rewrite Htr.
    destruct (fst (run_plan (setstat_plan (handle_call h attrs)) w));
      cbn [normalize_outcome]; [| discriminate].
    intros _. rewrite Hn. now rewrite firstn_all.
  - rewrite setstat_path_body, exception_wrapper_spec. cbn [fst snd].
    destruct (run_plan_prefix (setstat_plan (path_call filename attrs)) w)
      as [n [Htr Hn]].
    rewrite Htr.
    destruct (fst (run_plan (setstat_plan (path_call filename attrs)) w));
      cbn [normalize_outcome]; [| discriminate].
    intros _. rewrite Hn. now rewrite firstn_all.
Qed.

(** ** More on the directory stream *)

Lemma gen_drain_aux_take (l : list string) (k : nat) (acc : list (list byte)) :
  gen_drain_aux k (mk_gen l) acc
  = (acc ++ map encode (firstn k l), mk_gen (skipn k l)).
Proof.
  revert l acc. induction k as [| k IH]; intros l acc.
  - cbn. now rewrite app_nil_r.
  - destruct l as [| f rest]; cbn.
    + now rewrite app_nil_r.
    + rewrite IH, <- app_assoc. reflexivity.
Qed.

(** The stream is consumed as it is read: after [k] entries have been
    taken, what is left yields the remaining entries only, and the two
    parts together are the whole listing, each entry once and in order. *)
Theorem directory_stream_is_single_pass (l : list string) (k : nat) :
  let taken := fst (gen_drain_aux k (mk_gen l) []) in
  let left := snd (gen_drain_aux k (mk_gen l) []) in
  taken = map encode (firstn k l)
  /\ fst (gen_drain left) = map encode (skipn k l)
  /\ taken ++ fst (gen_drain left) = fst (gen_drain (mk_gen l)).
Proof.
  cbn zeta. rewrite gen_drain_aux_take. cbn [fst snd app].
  rewrite !gen_drain_all. cbn [fst].
  repeat split. now rewrite <- map_app, firstn_skipn.
Qed.

(** ** readlink, read, write and the plain forwards *)

(** [readlink] makes the one call [readlink] and returns the target
    encoded to bytes; when the client answers [None], it raises
    [AttributeError], which is not an [OSError]. *)
Theorem readlink_result (filename : string) (w : world) :
  readlink filename w =
    (match fst (client (CReadlink filename) (remote w)) with
     | Ok (Some target) => Ok (encode target)
     | Ok None => Raise AttributeError
     | Raise e => Raise (normalize e)
     end,
     {| remote := snd (client (CReadlink filename) (remote w));
        trace := trace w ++ [CReadlink filename] |})
  /\ is_OSError AttributeError = false.
Proof.
  split; [| reflexivity].
  unfold readlink. rewrite exception_wrapper_spec.
  unfold bind, remote_call, pure, raise.
  destruct (client (CReadlink filename) (remote w)) as [[[l |] | e] s];
    reflexivity.
Qed.

(** [read] seeks, then reads, and hands back what the handle gives, bytes
    or exception, as it is: nothing is normalized, and after a failed seek
    no read is made. *)
Theorem read_is_forwarded_as_is (h : handle) (off size : Z) (w : world) :
  read h off size w =
    match client (HSeek h off) (remote w) with
    | (Raise e, s) =>
        (Raise e, {| remote := s; trace := trace w ++ [HSeek h off] |})
    | (Ok _, s) =>
        (fst (client (HRead h size) s),
         {| remote := snd (client (HRead h size) s);
            trace := trace w ++ [HSeek h off; HRead h size] |})
    end.
Proof.
  unfold read, bind, remote_call.
  destruct (client (HSeek h off) (remote w)) as [[v | e] s]; cbn;
    [| reflexivity].
  destruct (client (HRead h size) s) as [o s']; cbn.
  rewrite <- app_assoc. reflexivity.
Qed.

(** Every [write] starts with a seek to its own offset, and the chunk is
    sent only if that seek succeeded. *)
Theorem write_seeks_first
  (h : handle) (off : Z) (chunk : list byte) (w : world) :
  trace (snd (write h off chunk w))
  = trace w ++ HSeek h off
      :: (if succeeds (fst (client (HSeek h off) (remote w)))
          then [HWrite h chunk] else []).
Proof.
  rewrite write_spec.
  destruct (client (HSeek h off) (remote w)) as [[v | e] s]; cbn;
    [| reflexivity].
  destruct (client (HWrite h chunk) s) as [[v' | e'] s']; reflexivity.
Qed.

(** [open], [mkdir], [rmdir], [rm], [rename] and [close] each make one
    remote call and hand back its normalized outcome: [open] sends the
    mode token, [mkdir] sends the mode it was given, [rename] keeps the
    order of its two paths. *)
Theorem plain_forwards (w : world) :
  (forall (filename : string) (flags mode : Z),
     open filename flags mode w
     = forwarded (COpen filename (flags_to_mode flags mode)) w)
  /\ (forall (filename : string) (mode : Z),
        mkdir filename mode w = forwarded (CMkdir filename mode) w)
  /\ (forall filename : string,
        rmdir filename w = forwarded (CRmdir filename) w)
  /\ (forall filename : string,
        rm filename w = forwarded (CRemove filename) w)
  /\ (forall oldpath newpath : string,
        rename oldpath newpath w = forwarded (CRename oldpath newpath) w)
  /\ (forall h : handle, close h w = forwarded (HClose h) w).
Proof.
  repeat split; intros.
  - exact (forward_one (COpen filename (flags_to_mode flags mode)) w).
  - exact (forward_one (CMkdir filename mode) w).
  - exact (forward_one (CRmdir filename) w).
  - exact (forward_one (CRemove filename) w).
  - exact (forward_one (CRename oldpath newpath) w).
  - exact (forward_one (HClose h) w).
Qed.

End ProxyStorage.

(** ** The storage on concrete inputs *)

Section Runs.

Import Linux.

Example flags_to_mode_linux :
  let f := flags_to_mode O_WRONLY O_RDWR O_APPEND O_CREAT O_TRUNC O_EXCL in
  f 0 0 = "r"%string
  /\ f O_WRONLY 0 = "w"%string
  /\ f (Z.lor O_WRONLY O_TRUNC) 0 = "w"%string
  /\ f (Z.lor O_WRONLY O_APPEND) 0 = "w"%string
  /\ f (Z.lor O_RDWR O_APPEND) 0 = "a+"%string
  /\ f (Z.lor O_RDWR (Z.lor O_APPEND O_CREAT)) 0 = "a+"%string
  /\ f (Z.lor O_RDWR O_CREAT) 0 = "w+"%string
  /\ f O_APPEND 0 = "a"%string
  /\ f (Z.lor O_RDWR O_TRUNC) 0 = "w+"%string
  /\ f O_RDWR 0 = "r+"%string
  /\ f O_CREAT 0 = "w"%string
  /\ f (Z.lor O_CREAT O_EXCL) 420 = "wx"%string
  /\ f (Z.lor O_RDWR (Z.lor O_CREAT O_EXCL)) 420 = "w+x"%string
  /\ f O_EXCL 0 = "r"%string.
Proof. repeat split. Qed.

Example stat_broken_link :
  stat unit (stub_client is_stat_call (IOError_py2 ENOENT "No such file"))
    stub_longname (OPath "link") (Some "/srv"%string) false false
    {| remote := tt; trace := [] |}
  = (Ok (stat_dict link_attrs (VStr "link")),
     {| remote := tt;
        trace := [CStat (OPath "/srv/link"); CLstat (OPath "/srv/link")] |}).
Proof. reflexivity. Qed.

Example opendir_a_b :
  exists g : generator,
    opendir unit (stub_client no_call SSHException) "/srv"
      {| remote := tt; trace := [] |}
    = (Ok g, {| remote := tt; trace := [CListdir "/srv"] |})
    /\ fst (gen_drain g)
       = [encode "a"; encode "b"; encode "."; encode ".."]
    /\ fst (gen_next (snd (gen_drain g))) = None.
Proof. eexists. repeat split. Qed.

Example setstat_stops_at_failed_chown :
  let attrs : gmap string pyval :=
    <["size" := VInt 0]> (<["uid" := VInt 1]> (<["gid" := VInt 2]>
      (<["perm" := VInt 420]> ∅))) in
  setstat unit (stub_client is_chown_call (IOError_py2 ENOENT "No such file"))
    (OPath "f") attrs false {| remote := tt; trace := [] |}
  = (Raise (OSError (VInt ENOENT) (VStr "No such file")),
     {| remote := tt;
        trace := [CTruncate (OPath "f") (VInt 0);
                  CChown (OPath "f") (VInt 1) (VInt 2)] |}).
Proof. vm_compute. reflexivity. Qed.

Example setstat_lone_uid_makes_no_call :
  let attrs : gmap string pyval := <["uid" := VInt 1]> ∅ in
  setstat unit (stub_client no_call SSHException)
    (OPath "f") attrs false {| remote := tt; trace := [] |}
  = (Ok tt, {| remote := tt; trace := [] |}).
Proof. vm_compute. reflexivity. Qed.

Example write_failure_is_false :
  write unit (stub_client is_write_call (IOError_py2 ENOENT "No such file"))
    3%nat 10 [] {| remote := tt; trace := [] |}
  = (Ok false,
     {| remote := tt; trace := [HSeek 3%nat 10; HWrite 3%nat []] |}).
Proof. reflexivity. Qed.

(** [read] is not decorated: under Python 2 an [IOError] of the handle
    reaches the caller as it is. *)
Example read_is_not_wrapped :
  let e := IOError_py2 ENOENT "No such file" in
  fst (read unit (stub_client is_read_call e) 3%nat 0 16
         {| remote := tt; trace := [] |})
  = Raise e
  /\ is_OSError e = false.
Proof. split; reflexivity. Qed.

End Runs.

(** C2, as stated, fails: a failure of the client that is not an
    [IOError], here Paramiko's [SSHException] on [remove], reaches the
    caller of [rm] unchanged and is not an [OSError]. *)
Lemma rm_failure_not_always_OSError :
  ~ (forall (R : Type) (client : forall c : call, R -> outcome (ret c) * R)
            (filename : string) (w : world R) (e : exn),
       fst (client (CRemove filename) (remote R w)) = Raise e ->
       exists e' : exn,
         fst (rm R client filename w) = Raise e'
         /\ is_OSError e' = true
         /\ exn_errno e' = exn_errno e
         /\ exn_strerror e' = exn_strerror e).
Proof.
  intros H.
  destruct (H unit (stub_client is_remove_call SSHException) "missing"%string
              {| remote := tt; trace := [] |} SSHException eq_refl)
    as [e' [Hrm [HOS _]]].
  cbv in Hrm. inversion Hrm; subst e'. discriminate HOS.
Qed.

(** C2 on a concrete input: a remote not-found [IOError] on [rm] is raised
    as an [OSError] with the same error code and message. *)
Lemma wrapped_failure_is_normalized_witness :
  let client := stub_client is_remove_call (IOError_py2 ENOENT "No such file") in
  let w : world unit := {| remote := tt; trace := [] |} in
  let r := ReqRm "missing" in
  first_call Linux.O_WRONLY Linux.O_RDWR Linux.O_APPEND Linux.O_CREAT
    Linux.O_TRUNC Linux.O_EXCL r = Some (CRemove "missing")
  /\ fst (client (CRemove "missing") (remote unit w))
     = Raise (IOError_py2 ENOENT "No such file")
  /\ fst (serve Linux.O_WRONLY Linux.O_RDWR Linux.O_APPEND Linux.O_CREAT
            Linux.O_TRUNC Linux.O_EXCL unit client stub_longname r w)
     = Raise (OSError (VInt ENOENT) (VStr "No such file")).
Proof.
  intros client w r.
  split; [reflexivity |]. split; [reflexivity |].
  exact (proj1 (wrapped_failure_is_normalized
                  Linux.O_WRONLY Linux.O_RDWR Linux.O_APPEND Linux.O_CREAT
                  Linux.O_TRUNC Linux.O_EXCL unit client stub_longname
                  r (CRemove "missing") w
                  (IOError_py2 ENOENT "No such file") eq_refl eq_refl)).
Defined.

(** C9 on a concrete input: a set with [uid] and [mtime] only, in the
    handle variant, on a path. *)
Lemma setstat_without_category_is_silent_witness :
  let attrs : gmap string pyval :=
    <["uid" := VInt 0]> (<["mtime" := VInt 5]> ∅) in
  let w : world unit := {| remote := tt; trace := [] |} in
  attrs !! "size" = None
  /\ (attrs !! "uid" = None \/ attrs !! "gid" = None)
  /\ attrs !! "perm" = None
  /\ (attrs !! "atime" = None \/ attrs !! "mtime" = None)
  /\ setstat unit (stub_client no_call SSHException) (OPath "f") attrs true w
     = (Ok tt, w).
Proof.
  intros attrs w.
  assert (H1 : attrs !! "size" = None) by reflexivity.
  assert (H2 : attrs !! "uid" = None \/ attrs !! "gid" = None)
    by (right; reflexivity).
  assert (H3 : attrs !! "perm" = None) by reflexivity.
  assert (H4 : attrs !! "atime" = None \/ attrs !! "mtime" = None)
    by (left; reflexivity).
  repeat (split; [assumption |]).
  exact (setstat_without_category_is_silent unit
           (stub_client no_call SSHException) (OPath "f") attrs true w
           H1 H2 H3 H4).
Defined.

(** ** The further properties on concrete inputs *)

(** Write-only with append on Linux: the token is [w]. *)
Lemma flags_to_mode_write_only_wins_witness :
  let flags := Z.lor Linux.O_WRONLY Linux.O_APPEND in
  truthy (Z.land flags Linux.O_WRONLY) = true
  /\ flags_to_mode Linux.O_WRONLY Linux.O_RDWR Linux.O_APPEND Linux.O_CREAT
       Linux.O_TRUNC Linux.O_EXCL flags 0
     = "w"%string.
Proof.
  intros flags. split; [reflexivity |].
  exact (flags_to_mode_write_only_wins
           Linux.O_WRONLY Linux.O_RDWR Linux.O_APPEND Linux.O_CREAT
           Linux.O_TRUNC Linux.O_EXCL flags 0 eq_refl).
Defined.

(** The non-blocking bit next to read-write and create on Linux. *)
Lemma flags_to_mode_other_bits_witness :
  let flags := Z.lor Linux.O_RDWR Linux.O_CREAT in
  Z.land O_NONBLOCK Linux.O_WRONLY = 0
  /\ Z.land O_NONBLOCK Linux.O_RDWR = 0
  /\ Z.land O_NONBLOCK Linux.O_APPEND = 0
  /\ Z.land O_NONBLOCK Linux.O_CREAT = 0
  /\ Z.land O_NONBLOCK Linux.O_TRUNC = 0
  /\ Z.land O_NONBLOCK Linux.O_EXCL = 0
  /\ flags_to_mode Linux.O_WRONLY Linux.O_RDWR Linux.O_APPEND Linux.O_CREAT
       Linux.O_TRUNC Linux.O_EXCL (Z.lor flags O_NONBLOCK) 0
     = flags_to_mode Linux.O_WRONLY Linux.O_RDWR Linux.O_APPEND
         Linux.O_CREAT Linux.O_TRUNC Linux.O_EXCL flags 0.
Proof.
  intros flags. do 6 (split; [reflexivity |]).
  exact (flags_to_mode_other_bits
           Linux.O_WRONLY Linux.O_RDWR Linux.O_APPEND Linux.O_CREAT
           Linux.O_TRUNC Linux.O_EXCL flags O_NONBLOCK 0
           eq_refl eq_refl eq_refl eq_refl eq_refl eq_refl).
Defined.

(** [rm] on a client that raises Python 3's [FileNotFoundError]. *)
Lemma exception_wrapper_identity_witness :
  let client := stub_client is_remove_call (FileNotFoundError_py3 "No such file") in
  let w : world unit := {| remote := tt; trace := [] |} in
  (forall e : exn,
     fst (remote_call unit client (CRemove "missing") w) = Raise e ->
     implb (is_IOError e) (is_OSError e) = true)
  /\ rm unit client "missing" w
     = remote_call unit client (CRemove "missing") w.
Proof.
  intros client w.
  assert (H : forall e : exn,
             fst (remote_call unit client (CRemove "missing") w) = Raise e ->
             implb (is_IOError e) (is_OSError e) = true).
  { intros e He. cbv in He. inversion He. reflexivity. }
  split; [exact H |].
  exact (exception_wrapper_identity unit
           (remote_call unit client (CRemove "missing")) w H).
Defined.


(** An absolute name under a parent directory. *)
Lemma stat_absolute_name_ignores_parent_witness :
  let client := stub_client no_call SSHException in
  let w : world unit := {| remote := tt; trace := [] |} in
  (startswith_sep "/etc/passwd" = true \/ "/srv"%string = ""%string)
  /\ stat unit client stub_longname (OPath "/etc/passwd") (Some "/srv"%string)
       false false w
     = stat unit client stub_longname (OPath "/etc/passwd") None
         false false w.
Proof.
  intros client w.
  assert (H : startswith_sep "/etc/passwd" = true \/ "/srv"%string = ""%string)
    by (left; reflexivity).
  split; [exact H |].
  exact (stat_absolute_name_ignores_parent unit client stub_longname
           "/etc/passwd" "/srv" w H).
Defined.

(** The fstat variant on an open file. *)
Lemma stat_result_keys_witness :
  let client := stub_client no_call SSHException in
  let w : world unit := {| remote := tt; trace := [] |} in
  let w' : world unit := {| remote := tt; trace := [HStat 3%nat] |} in
  let d := stat_dict link_attrs VNone in
  stat unit client stub_longname (OHandle 3%nat) None false true w = (Ok d, w')
  /\ dom d = stat_keys
  /\ d !! "longname" = Some VNone.
Proof.
  intros client w w' d.
  assert (H : stat unit client stub_longname (OHandle 3%nat) None false true w
              = (Ok d, w')) by reflexivity.
  split; [exact H |].
  exact (stat_result_keys unit client stub_longname
           (OHandle 3%nat) None false true w w' d H).
Defined.

(** [longname] next to [perm]. *)
Lemma setstat_ignores_other_keys_witness :
  let client := stub_client no_call SSHException in
  let w : world unit := {| remote := tt; trace := [] |} in
  let attrs : gmap string pyval := <["perm" := VInt 420]> ∅ in
  ~ In "longname"%string setstat_keys
  /\ setstat unit client (OPath "f") (<["longname" := VStr "l"]> attrs) false w
     = setstat unit client (OPath "f") attrs false w.
Proof.
  intros client w attrs.
  assert (H : ~ In "longname"%string setstat_keys)
    by (cbn; intuition discriminate).
  split; [exact H |].
  exact (setstat_ignores_other_keys unit client (OPath "f") attrs false
           "longname" (VStr "l") w H).
Defined.

(** Size and permission on a path, both accepted by the remote side. *)
Lemma setstat_success_applies_all_witness :
  let client := stub_client no_call SSHException in
  let w : world unit := {| remote := tt; trace := [] |} in
  let attrs : gmap string pyval :=
    <["size" := VInt 0]> (<["perm" := VInt 420]> ∅) in
  fst (setstat unit client (OPath "f") attrs false w) = Ok tt
  /\ trace unit (snd (setstat unit client (OPath "f") attrs false w))
     = [CTruncate (OPath "f") (VInt 0); CChmod (OPath "f") (VInt 420)].
Proof.
  intros client w attrs.
  assert (H : fst (setstat unit client (OPath "f") attrs false w) = Ok tt)
    by (vm_compute; reflexivity).
  split; [exact H |].
  exact (setstat_success_applies_all unit client (OPath "f") attrs false w H).
Defined.

(** The attributes of a link, read with the lstat variant and given back
    to [setstat] for the same path or for an open file. *)
Lemma setstat_of_stat_dict_witness :
  let client := stub_client no_call SSHException in
  let w : world unit := {| remote := tt; trace := [] |} in
  let w' : world unit :=
    {| remote := tt; trace := [CLstat (OPath "link")] |} in
  let d := stat_dict link_attrs (VStr "link") in
  let target := OPath "link" in
  stat unit client stub_longname (OPath "link") None true false w = (Ok d, w')
  /\ exists st : SFTPAttributes,
       d = stat_dict st (stub_longname st (OPath "link"))
       /\ (forall w2 : world unit,
             setstat unit client target d false w2
             = exception_wrapper unit
                 (run_plan unit client
                    [CTruncate target (st_size st);
                     CChown target (st_uid st) (st_gid st);
                     CChmod target (st_mode st);
                     CUtime target (st_atime st, st_mtime st)]) w2)
       /\ (forall w2 : world unit,
             setstat unit client (OHandle 3%nat) d true w2
             = exception_wrapper unit
                 (run_plan unit client
                    [HTruncate 3%nat (st_size st);
                     HChown 3%nat (st_uid st) (st_gid st);
                     HChmod 3%nat (st_mode st);
                     HUtime 3%nat (st_atime st, st_mtime st)]) w2).
Proof.
  intros client w w' d target.
  assert (H : stat unit client stub_longname (OPath "link") None true false w
              = (Ok d, w')) by reflexivity.
  split; [exact H |].
  exact (setstat_of_stat_dict unit client stub_longname
           (OPath "link") None true false w w' d target 3%nat H).
Defined.
